(** * gcore_point.py: one-shot stop events that dump core at a breakpoint

    A shallow embedding of [gcore_point.py].  The script runs inside gdb's
    Python interpreter; everything it touches of gdb (event registries,
    [gdb.execute], the breakpoint table, the selected inferior) is kept in
    an explicit [World], and Python exceptions are the [Raise] outcome of a
    state-and-exception monad. *)

From Stdlib Require Import Ascii String.
From stdpp Require Import gmap strings list pretty.

(** ** Python exceptions and the values a global name can hold *)

(** The exception classes that can reach this script: Python's own, and
    gdb's [gdb.error] (a [RuntimeError]) and [gdb.GdbError] (an
    [Exception]). *)
Inductive exc_class :=
  | BaseException
  | KeyboardInterrupt
  | PyException
  | NameError
  | TypeError
  | AttributeError
  | LookupError
  | IndexError
  | RuntimeError
  | gdb_error
  | GdbError.

Global Instance exc_class_eq_dec : EqDecision exc_class.
Proof. solve_decision. Defined.

(** The direct base class, [None] for the root. *)
Definition base_of (c : exc_class) : option exc_class :=
  match c with
  | BaseException => None
  | KeyboardInterrupt => Some BaseException
  | PyException => Some BaseException
  | NameError => Some PyException
  | TypeError => Some PyException
  | AttributeError => Some PyException
  | LookupError => Some PyException
  | IndexError => Some LookupError
  | RuntimeError => Some PyException
  | gdb_error => Some RuntimeError
  | GdbError => Some PyException
  end.

Fixpoint subclass_fuel (n : nat) (c d : exc_class) : bool :=
  if decide (c = d) then true
  else match n with
       | O => false
       | S n' => match base_of c with
                 | Some b => subclass_fuel n' b d
                 | None => false
                 end
       end.

(** [issubclass(c, d)]; the hierarchy is three levels deep. *)
Definition issubclass (c d : exc_class) : bool := subclass_fuel 3 c d.

Record exc := Exc { exc_cls : exc_class; exc_msg : string }.

Global Instance exc_eq_dec : EqDecision exc.
Proof. solve_decision. Defined.

(** What a name of the module namespace may be bound to, as far as an
    [except] clause can tell: an exception class, a tuple, or any other
    object (shown by its [repr]). *)
#[warnings="-register-all"]
Inductive pyval :=
  | VExcClass (c : exc_class)
  | VTuple (items : list pyval)
  | VOther (repr : string).

Definition class_name (c : exc_class) : string :=
  match c with
  | BaseException => "BaseException"
  | KeyboardInterrupt => "KeyboardInterrupt"
  | PyException => "Exception"
  | NameError => "NameError"
  | TypeError => "TypeError"
  | AttributeError => "AttributeError"
  | LookupError => "LookupError"
  | IndexError => "IndexError"
  | RuntimeError => "RuntimeError"
  | gdb_error => "gdb.error"
  | GdbError => "gdb.GdbError"
  end.

(** [", ".join(l)]. *)
Fixpoint join_comma (l : list string) : string :=
  match l with
  | [] => ""
  | [x] => x
  | x :: l' => x +:+ ", " +:+ join_comma l'
  end.

(** [str(v)], what [print(v)] writes; a tuple of one item shows a comma
    after it. *)
Fixpoint str_of (v : pyval) : string :=
  match v with
  | VExcClass c => "<class '" +:+ class_name c +:+ "'>"
  | VTuple items =>
      match items with
      | [x] => "(" +:+ str_of x +:+ ",)"
      | _ => "(" +:+ join_comma (map str_of items) +:+ ")"
      end
  | VOther r => r
  end.

(** Whether the class expression of an [except] clause catches the
    exception [x]: a class catches its instances; a tuple must hold
    exception classes only, one level deep, and catches what one of them
    catches; [None] when the value cannot be caught with. *)
Definition as_exception_class (v : pyval) : option exc_class :=
  match v with
  | VExcClass c => Some c
  | _ => None
  end.

Definition except_matches (x : exc) (v : pyval) : option bool :=
  match v with
  | VExcClass c => Some (issubclass (exc_cls x) c)
  | VTuple items =>
      classes ← mapM as_exception_class items;
      Some (existsb (issubclass (exc_cls x)) classes)
  | VOther _ => None
  end.

(** ** The world: gdb's state and the Python heap *)

(** gdb's event registries ([gdb.events.stop] and its siblings). *)
Inductive registry :=
  | events_stop
  | events_cont
  | events_exited.

Global Instance registry_eq_dec : EqDecision registry.
Proof. solve_decision. Defined.

(** The class of a one-shot object: the base class itself, the script's
    [GCoreOnStop], or the [n]-th subclass written by a user of the base
    class. *)
Inductive oneshot_class :=
  | GDBEventOneShot
  | GCoreOnStop
  | UserOneShot (n : nat).

(** Instance attributes of a one-shot object.  [_file_name] is only set by
    [GCoreOnStop.__init__], after the base initialiser has run. *)
Record oneshot := OneShot {
  os_class : oneshot_class;
  _registry : registry;
  _continue : bool;
  _file_name : option string
}.

(** A [CoreDumpBP]: the spec gdb was given, the script's own [_core_name],
    and gdb's [hit_count] attribute. *)
Record breakpoint := Breakpoint {
  bp_spec : string;
  _core_name : option string;
  hit_count : Z
}.

Record World := mkWorld {
  globals : gmap string pyval;      (* the namespace the script's functions see *)
  heap : gmap nat oneshot;          (* one-shot objects, by identity *)
  next_id : nat;                    (* next fresh identity *)
  subscribers : registry -> list nat; (* connected callbacks, oldest first *)
  commands : list string;           (* every gdb.execute so far, oldest first *)
  stdout : list string;             (* lines written by print *)
  breakpoints : list breakpoint;    (* gdb's breakpoint table *)
  inferior_pid : Z;                 (* gdb.selected_inferior().pid *)
  run_log : list nat                (* ghost: each entry into a run_event *)
}.

Definition set_heap (h : gmap nat oneshot) (w : World) : World :=
  mkWorld (globals w) h (next_id w) (subscribers w) (commands w) (stdout w)
          (breakpoints w) (inferior_pid w) (run_log w).

Definition set_next_id (n : nat) (w : World) : World :=
  mkWorld (globals w) (heap w) n (subscribers w) (commands w) (stdout w)
          (breakpoints w) (inferior_pid w) (run_log w).

Definition set_subscribers (s : registry -> list nat) (w : World) : World :=
  mkWorld (globals w) (heap w) (next_id w) s (commands w) (stdout w)
          (breakpoints w) (inferior_pid w) (run_log w).

Definition set_commands (c : list string) (w : World) : World :=
  mkWorld (globals w) (heap w) (next_id w) (subscribers w) c (stdout w)
          (breakpoints w) (inferior_pid w) (run_log w).

Definition set_stdout (o : list string) (w : World) : World :=
  mkWorld (globals w) (heap w) (next_id w) (subscribers w) (commands w) o
          (breakpoints w) (inferior_pid w) (run_log w).

Definition set_breakpoints (b : list breakpoint) (w : World) : World :=
  mkWorld (globals w) (heap w) (next_id w) (subscribers w) (commands w)
          (stdout w) b (inferior_pid w) (run_log w).

Definition set_run_log (l : list nat) (w : World) : World :=
  mkWorld (globals w) (heap w) (next_id w) (subscribers w) (commands w)
          (stdout w) (breakpoints w) (inferior_pid w) l.

(** ** Computations that may raise *)

Inductive outcome (A : Type) :=
  | Ok (a : A) (w : World)
  | Raise (e : exc) (w : World).
Arguments Ok {A} a w.
Arguments Raise {A} e w.

Definition world_of {A} (r : outcome A) : World :=
  match r with Ok _ w => w | Raise _ w => w end.

Definition raised {A} (r : outcome A) : option exc :=
  match r with Ok _ _ => None | Raise e _ => Some e end.

Definition py (A : Type) : Type := World -> outcome A.

Definition ret {A} (a : A) : py A := fun w => Ok a w.

Definition bind {A B} (m : py A) (k : A -> py B) : py B :=
  fun w => match m w with
           | Ok a w' => k a w'
           | Raise e w' => Raise e w'
           end.

Definition raise {A} (c : exc_class) (msg : string) : py A :=
  fun w => Raise (Exc c msg) w.

Definition modify (f : World -> World) : py unit := fun w => Ok () (f w).

Definition gets {A} (f : World -> A) : py A := fun w => Ok (f w) w.

(** stdpp's monad notations: [x ← m; k] and [m;; k]. *)
Global Instance py_ret : MRet py := @ret.
Global Instance py_bind : MBind py := fun A B k m => bind m k.

(** ** The host: what gdb decides *)

(** gdb's verdicts are not the script's to make.  [execute_error w cmd] is
    the message of the [gdb.error] with which gdb rejects [cmd] in world
    [w], if it does; [breakpoint_error spec] the same for the creation of a
    breakpoint at [spec].  [user_run_event n self] is the [run_event] method
    of the [n]-th user-written subclass of [GDBEventOneShot]. *)
Record Host := mkHost {
  execute_error : World -> string -> option string;
  breakpoint_error : string -> option string;
  user_run_event : nat -> nat -> py unit
}.

Section Script.

Context (host : Host).

(** [gdb.execute(cmd)]: the command is issued, then gdb may reject it. *)
Definition gdb_execute (cmd : string) : py unit :=
  fun w =>
    let w' := set_commands (commands w ++ [cmd]) w in
    match execute_error host w cmd with
    | Some msg => Raise (Exc gdb_error msg) w'
    | None => Ok () w'
    end.

(** [registry.connect(callback)]: gdb appends to the callback list. *)
Definition connect (r : registry) (callback : nat) : py unit :=
  modify (fun w =>
    set_subscribers
      (fun r' => if decide (r' = r) then subscribers w r' ++ [callback]
                 else subscribers w r') w).

(** Remove the first occurrence, as gdb's list deletion by index does. *)
Fixpoint remove_first (x : nat) (l : list nat) : list nat :=
  match l with
  | [] => []
  | y :: l' => if decide (y = x) then l' else y :: remove_first x l'
  end.

(** [registry.disconnect(callback)]. *)
Definition disconnect (r : registry) (callback : nat) : py unit :=
  modify (fun w =>
    set_subscribers
      (fun r' => if decide (r' = r) then remove_first callback (subscribers w r')
                 else subscribers w r') w).

(** [print(v)]. *)
Definition print (v : pyval) : py unit :=
  modify (fun w => set_stdout (stdout w ++ [str_of v]) w).

(** Reading a global name: the script defines no [e], and neither do the
    builtins, so the namespace alone decides. *)
Definition load_name (x : string) : py pyval :=
  fun w =>
    match globals w !! x with
    | Some v => Ok v w
    | None => Raise (Exc NameError ("name '" +:+ x +:+ "' is not defined")) w
    end.

(** [try: body / except <cls>: handler].  The class expression is only
    evaluated once [body] has raised, and evaluating it may itself raise;
    its value, a class or a tuple of classes, then decides whether the
    handler runs, and any other value cannot be caught with. *)
Definition try_except {A} (body : py A) (cls : py pyval) (handler : py A) : py A :=
  fun w =>
    match body w with
    | Ok a w' => Ok a w'
    | Raise x w' =>
        match cls w' with
        | Raise y w'' => Raise y w''
        | Ok v w'' =>
            match except_matches x v with
            | Some true => handler w''
            | Some false => Raise x w''
            | None =>
                Raise (Exc TypeError
                         "catching classes that do not inherit from BaseException is not allowed")
                      w''
            end
        end
    end.

(** Attribute access on a one-shot object. *)
Definition self_attr {A} (self : nat) (attr : oneshot -> A) : py A :=
  fun w =>
    match heap w !! self with
    | Some o => Ok (attr o) w
    | None => Raise (Exc AttributeError "no such object") w
    end.

(** ** class GDBEventOneShot *)

(** [GDBEventOneShot.__init__(self, registry, continue_after_run=True)] on
    a freshly allocated [self] of class [c]. *)
Definition GDBEventOneShot_init (c : oneshot_class) (self : nat)
    (reg : registry) (continue_after_run : bool) : py unit :=
  modify (fun w => set_heap (<[self := OneShot c reg continue_after_run None]> (heap w)) w);;
  connect reg self.

(** Ghost step: the [run_event] method of [self] has been entered. *)
Definition entered (self : nat) : py unit :=
  modify (fun w => set_run_log (run_log w ++ [self]) w).

(** [GCoreOnStop.run_event(self)]. *)
Definition GCoreOnStop_run_event (self : nat) : py unit :=
  f ← self_attr self _file_name;
  match f with
  | Some file_name => gdb_execute ("gcore " +:+ file_name)
  | None => raise AttributeError "'GCoreOnStop' object has no attribute '_file_name'"
  end.

(** [self.run_event()], dispatched on the class of [self]; the base class
    defines no such method. *)
Definition run_event (self : nat) : py unit :=
  c ← self_attr self os_class;
  match c with
  | GDBEventOneShot =>
      raise AttributeError "'GDBEventOneShot' object has no attribute 'run_event'"
  | GCoreOnStop => entered self;; GCoreOnStop_run_event self
  | UserOneShot n => entered self;; user_run_event host n self
  end.

(** [GDBEventOneShot.__call__(self, event)]. *)
Definition GDBEventOneShot_call (self : nat) : py unit :=
  force_stop ←
    try_except (run_event self;; mret false)
               (load_name "e")
               (e ← load_name "e"; print e;; mret true);
  reg ← self_attr self _registry;
  disconnect reg self;;
  cont ← self_attr self _continue;
  if negb force_stop && cont then gdb_execute "continue" else mret ().

(** What is left of [__call__] once the [try] statement is over. *)
Definition after_try (self : nat) (force_stop : bool) : py unit :=
  reg ← self_attr self _registry;
  disconnect reg self;;
  cont ← self_attr self _continue;
  if negb force_stop && cont then gdb_execute "continue" else mret ().

(** ** class GCoreOnStop *)

(** Allocation of a new Python object: a fresh identity. *)
Definition new_object : py nat :=
  self ← gets next_id;
  modify (fun w => set_next_id (S self) w);;
  mret self.

Definition set_file_name (file_name : string) (o : oneshot) : oneshot :=
  OneShot (os_class o) (_registry o) (_continue o) (Some file_name).

(** [GCoreOnStop.__init__(self, file_name)]: the base initialiser is called
    with [gdb.events.stop] and the default [continue_after_run]. *)
Definition GCoreOnStop_init (self : nat) (file_name : string) : py unit :=
  GDBEventOneShot_init GCoreOnStop self events_stop true;;
  modify (fun w => set_heap (alter (set_file_name file_name) self (heap w)) w).

(** The expression [GCoreOnStop(file_name)]. *)
Definition GCoreOnStop_new (file_name : string) : py nat :=
  self ← new_object;
  GCoreOnStop_init self file_name;;
  mret self.

(** ** class CoreDumpBP *)

(** [str(n)] for a Python int. *)
Definition str_int (n : Z) : string := pretty n.

(** Lines 121-122: the f-strings that build the core file name. *)
Definition core_file_name (core_name : option string) (pid hits : Z) : string :=
  let core_name_prefix :=
    match core_name with
    | Some name => name +:+ "."
    | None => ""
    end in
  "core." +:+ core_name_prefix +:+ str_int pid +:+ "." +:+ str_int hits.

(** [CoreDumpBP.__init__(self, spec, core_name=None)]: gdb creates the
    breakpoint, with a hit count of zero, or rejects the spec. *)
Definition CoreDumpBP_new (spec : string) (core_name : option string) : py nat :=
  fun w =>
    match breakpoint_error host spec with
    | Some msg => Raise (Exc gdb_error msg) w
    | None =>
        Ok (length (breakpoints w))
           (set_breakpoints (breakpoints w ++ [Breakpoint spec core_name 0]) w)
    end.

(** [gdb.selected_inferior().pid]. *)
Definition selected_inferior_pid : py Z := gets inferior_pid.

(** [CoreDumpBP.stop(self)]. *)
Definition CoreDumpBP_stop (self : breakpoint) : py bool :=
  pid ← selected_inferior_pid;
  let core_file_name := core_file_name (_core_name self) pid (hit_count self) in
  GCoreOnStop_new core_file_name;;
  mret true.

(** ** class GcorePointCmd *)

(** [s.split(" ")]: cut at every single space; never an empty list. *)
Fixpoint split_space (s : string) : list string :=
  match s with
  | EmptyString => [""]
  | String c s' =>
      if decide (c = " "%char) then "" :: split_space s'
      else match split_space s' with
           | t :: ts => String c t :: ts
           | [] => [String c ""]
           end
  end.

(** [argv[i]]. *)
Definition index (argv : list string) (i : nat) : py string :=
  match argv !! i with
  | Some x => mret x
  | None => raise IndexError "list index out of range"
  end.

(** [self._name], set by [GcorePointCmd.__init__]. *)
Definition _name : string := "gcore-point".

(** [GcorePointCmd.invoke(self, arg, from_tty)]. *)
Definition GcorePointCmd_invoke (arg : string) : py unit :=
  if decide (arg = "") then
    raise GdbError ("The " +:+ _name +:+ " command must be called with arguments.")
  else
    let argv := split_space arg in
    spec ← index argv 0;
    if decide (1 < length argv) then
      core_name ← index argv 1;
      CoreDumpBP_new spec (Some core_name);;
      mret ()
    else
      CoreDumpBP_new spec None;;
      mret ().

(** ** The host's side of a hit and of an event *)

Definition bump (bp : breakpoint) : breakpoint :=
  Breakpoint (bp_spec bp) (_core_name bp) (hit_count bp + 1).

(** Modelled from the spec: the host's breakpoint facility, which is not
    part of the script.  When the location of breakpoint number [i] is
    reached the host calls its hit handler with the hits counted so far
    (none at the first hit) and then counts this one; the counter belongs
    to that breakpoint alone. *)
Definition breakpoint_hit (i : nat) : py bool :=
  fun w =>
    match breakpoints w !! i with
    | None => Ok false w
    | Some bp =>
        (decision ← CoreDumpBP_stop bp;
         modify (fun w' => set_breakpoints (alter bump i (breakpoints w')) w');;
         mret decision) w
    end.

(** The world after the locations of [l] were reached, in that order. *)
Definition hits (l : list nat) (w : World) : World :=
  foldl (fun w i => world_of (breakpoint_hit i w)) w l.

(** Modelled from the spec: the host's event registry, which is not part of
    the script.  An event is delivered to the callbacks that are connected
    when it fires, oldest first; a callback that raises does not keep the
    others from being called. *)
Definition deliver (callbacks : list nat) (w : World) : World :=
  foldl (fun w cb => world_of (GDBEventOneShot_call cb w)) w callbacks.

Definition emit (r : registry) (w : World) : World :=
  deliver (subscribers w r) w.

End Script.

(** A token: a string without a space. *)
Fixpoint no_space (s : string) : bool :=
  match s with
  | EmptyString => true
  | String c s' => if decide (c = " "%char) then false else no_space s'
  end.

(** A string of spaces only. *)
Fixpoint all_spaces (s : string) : bool :=
  match s with
  | EmptyString => true
  | String c s' => if decide (c = " "%char) then all_spaces s' else false
  end.

(** Modelled from the spec: the host's control loop, which is not part of
    the script.  When the hit handler of breakpoint [i] answers "stop" the
    host completes the stop and fires its stop event. *)
Definition hit_cycle (host : Host) (i : nat) (w : World) : World :=
  match breakpoint_hit i w with
  | Ok true w' => emit host events_stop w'
  | Ok false w' => w'
  | Raise _ w' => w'
  end.

(** [k] such cycles of breakpoint [i] in a row. *)
Fixpoint cycles (host : Host) (k : nat) (i : nat) (w : World) : World :=
  match k with
  | O => w
  | S k' => cycles host k' i (hit_cycle host i w)
  end.

(** The commands of [k] dumps in a row, the first with hit count [first],
    each followed by the resume. *)
Fixpoint dump_commands (core_name : option string) (pid first : Z) (k : nat)
    : list string :=
  match k with
  | O => []
  | S k' =>
      ("gcore " +:+ core_file_name core_name pid first) :: "continue"
      :: dump_commands core_name pid (first + 1) k'
  end.

(** A string without a dot, as the decimal numerals are. *)
Fixpoint no_dot (s : string) : bool :=
  match s with
  | EmptyString => true
  | String c s' => if decide (c = "."%char) then false else no_dot s'
  end.

(** Python hands every new object an identity no live object has.  In the
    world this reads: no identity from [next_id] on names an object or is
    connected to a registry. *)
Definition ids_fresh (w : World) : Prop :=
  ∀ i, next_id w ≤ i → heap w !! i = None ∧ ∀ r, i ∉ subscribers w r.

(** ** The world right after [source gcore_point.py] *)

(** The names the script binds at module level: [gdb] and its four
    classes.  None of them is an exception class, and there is no [e]. *)
Definition module_globals : gmap string pyval :=
  <["gdb" := VOther "<module 'gdb'>"]>
  (<["GDBEventOneShot" := VOther "<class '__main__.GDBEventOneShot'>"]>
  (<["GCoreOnStop" := VOther "<class '__main__.GCoreOnStop'>"]>
  (<["CoreDumpBP" := VOther "<class '__main__.CoreDumpBP'>"]>
  (<["GcorePointCmd" := VOther "<class '__main__.GcorePointCmd'>"]> ∅)))).

Definition fresh_world (pid : Z) : World :=
  mkWorld module_globals ∅ 0 (fun _ => []) [] [] [] pid [].

(** A host that accepts everything, and one whose [gcore] fails. *)
Definition obliging_host : Host :=
  mkHost (fun _ _ => None) (fun _ => None) (fun _ _ => mret ()).

Definition is_gcore (cmd : string) : bool :=
  if decide (String.substring 0 6 cmd = "gcore ") then true else false.

Definition disk_full_host : Host :=
  mkHost (fun _ cmd => if is_gcore cmd then Some "Can't create a corefile" else None)
         (fun _ => None) (fun _ _ => mret ()).

(** A host that rejects every breakpoint spec. *)
Definition rejecting_host : Host :=
  mkHost (fun _ _ => None) (fun _ => Some "No symbol table is loaded.")
         (fun _ _ => mret ()).

(** The world [w] after [e = v] was run in the script's namespace. *)
Definition with_global_e (v : pyval) (w : World) : World :=
  mkWorld (<["e" := v]> (globals w)) (heap w) (next_id w) (subscribers w)
          (commands w) (stdout w) (breakpoints w) (inferior_pid w) (run_log w).

(** An instance of a user's subclass, connected to [gdb.events.stop] with
    [continue_after_run=False]. *)
Definition quiet_world : World :=
  world_of (GDBEventOneShot_init (UserOneShot 0) 0 events_stop false
              (set_next_id 1 (fresh_world 4242))).

(** A breakpoint installed by [gcore-point main] for inferior 4242 and hit
    once, under either host. *)
Definition armed_world (h : Host) : World :=
  world_of (breakpoint_hit 0
    (world_of (GcorePointCmd_invoke h "main" (fresh_world 4242)))).

(** * Properties *)

Ltac py_simpl :=
  unfold mbind, mret, py_bind, py_ret, bind, ret, modify, gets, raise in *;
  simpl in *.

(** ** The one-shot binder *)

Section Binder.

Context (host : Host).

Lemma call_run_event_ok self w w1 :
  run_event host self w = Ok () w1 →
  GDBEventOneShot_call host self w = after_try host self false w1.
Proof.
  intros Hrun. unfold GDBEventOneShot_call, after_try, try_except.
  py_simpl. by rewrite Hrun.
Qed.

(** With no global [e], the [except e:] clause cannot be evaluated: the
    [NameError] replaces the failure of [run_event] and leaves [__call__]
    before the [disconnect]. *)
Lemma call_run_event_raises_unbound self w x w1 :
  run_event host self w = Raise x w1 →
  globals w1 !! "e" = None →
  GDBEventOneShot_call host self w
  = Raise (Exc NameError "name 'e' is not defined") w1.
Proof.
  intros Hrun He. unfold GDBEventOneShot_call, try_except, load_name.
  py_simpl. by rewrite Hrun, He.
Qed.

Lemma after_try_commands_stopped self w :
  commands (world_of (after_try host self true w)) = commands w.
Proof.
  unfold after_try, self_attr, disconnect. py_simpl.
  destruct (heap w !! self) eqn:Hself; simpl; rewrite ?Hself; done.
Qed.

Lemma after_try_subscribers self w o :
  heap w !! self = Some o →
  subscribers (world_of (after_try host self false w)) (_registry o)
  = remove_first self (subscribers w (_registry o)).
Proof.
  intros Hself. unfold after_try, self_attr, disconnect, gdb_execute. py_simpl.
  rewrite Hself. simpl. rewrite Hself. simpl.
  destruct (_continue o); simpl.
  - destruct (execute_error host _ _); simpl; by rewrite decide_True.
  - by rewrite decide_True.
Qed.

Lemma GCoreOnStop_run_event_commands self w o f :
  heap w !! self = Some o →
  os_class o = GCoreOnStop →
  _file_name o = Some f →
  commands (world_of (run_event host self w)) = commands w ++ ["gcore " +:+ f].
Proof.
  intros Hself Hcls Hf.
  unfold run_event, GCoreOnStop_run_event, entered, self_attr, gdb_execute.
  py_simpl. rewrite Hself. simpl. rewrite Hcls. simpl. rewrite Hself. simpl.
  rewrite Hf. destruct (execute_error host _ _); done.
Qed.

(** C6. Whatever the resume-after-run flag and whatever [e] may be bound
    to, if [run_event] raises then [__call__] issues no command of its own:
    the commands gdb has received when [__call__] ends are those it had
    received when [run_event] raised, so no "continue" was sent. *)
Theorem failed_run_event_never_resumes self w x w1 :
  run_event host self w = Raise x w1 →
  commands (world_of (GDBEventOneShot_call host self w)) = commands w1.
Proof.
  intros Hrun.
  unfold GDBEventOneShot_call, try_except, load_name, print.
  py_simpl. rewrite Hrun.
  destruct (globals w1 !! "e") as [v|] eqn:He; simpl; [|done].
  destruct (except_matches x v) as [[|]|]; simpl; try done.
  rewrite He. simpl.
  exact (after_try_commands_stopped self
           (set_stdout (stdout w1 ++ [str_of v]) w1)).
Qed.

(** C5. If [run_event] completes and the binding's resume-after-run flag is
    set, [__call__] sends gdb exactly one command after those of
    [run_event], and it is "continue"; for a [GCoreOnStop] the commands of
    [run_event] are the single "gcore <file name>", so the two commands of
    the invocation are the dump and then the resume. *)
Theorem successful_run_event_resumes_once self w w1 o :
  run_event host self w = Ok () w1 →
  heap w1 !! self = Some o →
  _continue o = true →
  commands (world_of (GDBEventOneShot_call host self w))
  = commands w1 ++ ["continue"]
  ∧ (∀ o0 f, heap w !! self = Some o0 → os_class o0 = GCoreOnStop →
             _file_name o0 = Some f →
             commands (world_of (GDBEventOneShot_call host self w))
             = commands w ++ ["gcore " +:+ f; "continue"]).
Proof.
  intros Hrun Hself Hcont.
  assert (Hfinal : commands (world_of (GDBEventOneShot_call host self w))
                   = commands w1 ++ ["continue"]).
  { rewrite (call_run_event_ok _ _ _ Hrun).
    unfold after_try, self_attr, disconnect, gdb_execute. py_simpl.
    rewrite Hself. simpl. rewrite Hself. simpl. rewrite Hcont. simpl.
    destruct (execute_error host _ _); done. }
  split; [done|].
  intros o0 f Hself0 Hcls Hf. rewrite Hfinal.
  pose proof (GCoreOnStop_run_event_commands self w o0 f Hself0 Hcls Hf) as Hc.
  rewrite Hrun in Hc. simpl in Hc. rewrite Hc.
  by rewrite <- app_assoc.
Qed.

End Binder.

(** ** The binder when the dump fails *)

(** C1. With the script's own namespace and a host whose [gcore] fails, the
    stop event reaches the armed binding, [run_event] raises, and when
    [__call__] ends the binding is still connected to [gdb.events.stop]. *)
Theorem failed_dump_stays_subscribed :
  raised (run_event disk_full_host 0 (armed_world disk_full_host))
  = Some (Exc gdb_error "Can't create a corefile")
  ∧ subscribers (armed_world disk_full_host) events_stop = [0]
  ∧ subscribers
      (world_of (GDBEventOneShot_call disk_full_host 0 (armed_world disk_full_host)))
      events_stop = [0].
Proof. by vm_compute. Qed.

(** C2. In the same situation the failure of [run_event] is not caught:
    [__call__] ends by raising a [NameError] to the host, and nothing has
    been printed. *)
Theorem failed_dump_escapes_unreported :
  raised (GDBEventOneShot_call disk_full_host 0 (armed_world disk_full_host))
  = Some (Exc NameError "name 'e' is not defined")
  ∧ stdout (world_of (GDBEventOneShot_call disk_full_host 0 (armed_world disk_full_host)))
    = [].
Proof. by vm_compute. Qed.

(** C4. In the same situation a second stop event enters [run_event] of the
    same binding again: it has run twice, and has asked for the same dump
    twice. *)
Theorem failed_dump_runs_again :
  let w2 := emit disk_full_host events_stop
              (emit disk_full_host events_stop (armed_world disk_full_host)) in
  run_log w2 = [0; 0]
  ∧ commands w2 = ["gcore core.4242.0"; "gcore core.4242.0"].
Proof. by vm_compute. Qed.

(** When the dump succeeds the binding does run once only. *)
Example successful_dump_runs_once :
  let w2 := emit obliging_host events_stop
              (emit obliging_host events_stop (armed_world obliging_host)) in
  run_log w2 = [0]
  ∧ commands w2 = ["gcore core.4242.0"; "continue"]
  ∧ subscribers w2 events_stop = [].
Proof. by vm_compute. Qed.

(** ** The breakpoint *)

(** C7. A hit constructs one [GCoreOnStop]: it takes the next identity,
    which so far named no object and was connected nowhere, and the
    identities after it stay unused, so the next hit constructs another
    object.  The hit connects that object (once) to [gdb.events.stop] with
    resume-after-run set, leaves every other registry and object alone,
    sends gdb no command, enters no [run_event], prints nothing, and
    answers [True]. *)
Theorem stop_arms_one_binding (self : breakpoint) (w : World) :
  ∃ w', CoreDumpBP_stop self w = Ok true w'
    ∧ subscribers w' events_stop = subscribers w events_stop ++ [next_id w]
    ∧ (∀ r, r ≠ events_stop → subscribers w' r = subscribers w r)
    ∧ heap w' !! next_id w
      = Some (OneShot GCoreOnStop events_stop true
                (Some (core_file_name (_core_name self) (inferior_pid w) (hit_count self))))
    ∧ (∀ i, i ≠ next_id w → heap w' !! i = heap w !! i)
    ∧ commands w' = commands w
    ∧ run_log w' = run_log w
    ∧ breakpoints w' = breakpoints w
    ∧ stdout w' = stdout w
    ∧ next_id w' = S (next_id w)
    ∧ (ids_fresh w →
       heap w !! next_id w = None
       ∧ (∀ r, next_id w ∉ subscribers w r)
       ∧ ids_fresh w').
Proof.
  unfold CoreDumpBP_stop, GCoreOnStop_new, GCoreOnStop_init,
    GDBEventOneShot_init, new_object, selected_inferior_pid, connect.
  py_simpl. eexists. split; [reflexivity|]. simpl.
  split; [done|]. split; [by intros r Hr; rewrite decide_False|].
  split; [by rewrite lookup_alter_eq, lookup_insert_eq|].
  split; [by intros i Hi; rewrite lookup_alter_ne, lookup_insert_ne|].
  do 5 (split; [done|]).
  intros Hfresh.
  destruct (Hfresh (next_id w) (le_n _)) as [Hheap Hsubs].
  split; [done|]. split; [done|].
  intros i Hi. simpl in Hi.
  destruct (Hfresh i ltac:(lia)) as [Hheap_i Hsubs_i].
  split.
  - simpl. rewrite lookup_alter_ne, lookup_insert_ne by lia. done.
  - intros r. simpl. case_decide; [|done].
    rewrite elem_of_app, list_elem_of_singleton.
    intros [Hin| ->]; [by apply (Hsubs_i r)|lia].
Qed.

(** Two hits in a row: two objects, each with its own file name. *)
Example two_hits_two_bindings :
  let w := hits [0; 0]
             (world_of (GcorePointCmd_invoke obliging_host "main" (fresh_world 4242))) in
  subscribers w events_stop = [0; 1]
  ∧ _file_name <$> heap w !! 0 = Some (Some "core.4242.0")
  ∧ _file_name <$> heap w !! 1 = Some (Some "core.4242.1")
  ∧ next_id w = 2.
Proof. by vm_compute. Qed.

Lemma breakpoint_hit_lookup i j w :
  breakpoints (world_of (breakpoint_hit i w)) !! j
  = if decide (i = j) then bump <$> breakpoints w !! j else breakpoints w !! j.
Proof.
  unfold breakpoint_hit. destruct (breakpoints w !! i) as [bp|] eqn:Hi; simpl.
  - case_decide as Hij.
    + subst j. by rewrite list_lookup_alter_eq.
    + by rewrite list_lookup_alter_ne.
  - case_decide as Hij; [|done]. subst j. by rewrite Hi.
Qed.

Lemma breakpoint_hit_pid i w :
  inferior_pid (world_of (breakpoint_hit i w)) = inferior_pid w.
Proof. unfold breakpoint_hit. by destruct (breakpoints w !! i). Qed.

Lemma hits_pid l w : inferior_pid (hits l w) = inferior_pid w.
Proof.
  revert w. induction l as [|j l IH]; intros w; [done|].
  simpl. change (inferior_pid (hits l (world_of (breakpoint_hit j w))) = inferior_pid w).
  by rewrite IH, breakpoint_hit_pid.
Qed.

(** A breakpoint's counter is the number of its own hits; the hits of the
    others do not move it. *)
Lemma hits_lookup l i w bp :
  breakpoints w !! i = Some bp →
  breakpoints (hits l w) !! i
  = Some (Breakpoint (bp_spec bp) (_core_name bp)
            (hit_count bp + Z.of_nat (count_occ Nat.eq_dec l i))).
Proof.
  revert w bp. induction l as [|j l IH]; intros w bp Hi.
  - simpl. rewrite Hi. destruct bp; simpl. by rewrite Z.add_0_r.
  - change (hits (j :: l) w) with (hits l (world_of (breakpoint_hit j w))).
    simpl count_occ. destruct (Nat.eq_dec j i) as [->|Hji].
    + rewrite (IH _ (bump bp)).
      * simpl. do 2 f_equal. lia.
      * rewrite breakpoint_hit_lookup, decide_True by done. by rewrite Hi.
    + rewrite (IH _ bp); [done|].
      rewrite breakpoint_hit_lookup, decide_False by done. done.
Qed.

Lemma string_app_assoc (a b c : string) : (a +:+ b) +:+ c = a +:+ (b +:+ c).
Proof.
  induction a as [|x a IH]; [done|].
  change (String x ((a +:+ b) +:+ c) = String x (a +:+ (b +:+ c))).
  by rewrite IH.
Qed.

(** C3. After a breakpoint has been created with [label], whatever hits of
    it and of other breakpoints follow, its next hit arms a dump whose file
    name is [core_file_name] of the label, the inferior's pid and the
    number of its own earlier hits (none at the first hit, one more after
    each); and that function writes [core.<label>.<pid>.<hits>] with a
    label and [core.<pid>.<hits>] without. *)
Theorem core_file_name_of_hit host spec label w0 i w l pid n :
  CoreDumpBP_new host spec label w0 = Ok i w →
  heap (world_of (breakpoint_hit i (hits l w))) !! next_id (hits l w)
  = Some (OneShot GCoreOnStop events_stop true
            (Some (core_file_name label (inferior_pid (hits l w))
                     (Z.of_nat (count_occ Nat.eq_dec l i)))))
  ∧ core_file_name label pid n
    = match label with
      | Some name => "core." +:+ name +:+ "." +:+ str_int pid +:+ "." +:+ str_int n
      | None => "core." +:+ str_int pid +:+ "." +:+ str_int n
      end.
Proof.
  intros Hnew. split.
  - unfold CoreDumpBP_new in Hnew.
    destruct (breakpoint_error host spec); [done|].
    injection Hnew as <- <-.
    assert (Hi : breakpoints (set_breakpoints
                   (breakpoints w0 ++ [Breakpoint spec label 0]) w0)
                 !! length (breakpoints w0) = Some (Breakpoint spec label 0)).
    { simpl. by rewrite lookup_app_r, Nat.sub_diag. }
    pose proof (hits_lookup l _ _ _ Hi) as Hl. simpl in Hl.
    unfold breakpoint_hit at 1. rewrite Hl.
    py_simpl. by rewrite lookup_alter_eq, lookup_insert_eq.
  - unfold core_file_name. destruct label as [name|]; [|done].
    change ("core." +:+ (name +:+ ".") +:+ str_int pid +:+ "." +:+ str_int n)
      with (String "c" (String "o" (String "r" (String "e" (String "."
              ((name +:+ ".") +:+ str_int pid +:+ "." +:+ str_int n)))))).
    by rewrite string_app_assoc.
Qed.

Example core_file_names :
  core_file_name None 4242 0 = "core.4242.0"
  ∧ core_file_name None 4242 1 = "core.4242.1"
  ∧ core_file_name (Some "run") 4242 0 = "core.run.4242.0".
Proof. by vm_compute. Qed.

(** ** The command *)

(** C8. With an empty argument string [invoke] raises the [gdb.GdbError]
    that gdb reports as the command's error message, whatever the host
    would have said of any breakpoint, and the world is as it was: no
    breakpoint has been created. *)
Theorem invoke_empty_is_usage_error (host : Host) (w : World) :
  GcorePointCmd_invoke host "" w
  = Raise (Exc GdbError "The gcore-point command must be called with arguments.") w
  ∧ breakpoints (world_of (GcorePointCmd_invoke host "" w)) = breakpoints w.
Proof. done. Qed.

Lemma append_cons c (a b : string) : String c a +:+ b = String c (a +:+ b).
Proof. done. Qed.

Lemma split_space_not_nil s : split_space s ≠ [].
Proof.
  destruct s as [|c s]; simpl; [done|].
  case_decide; [done|]. by destruct (split_space s).
Qed.

Lemma split_space_append a r :
  no_space a = true →
  split_space (a +:+ String " " r) = a :: split_space r.
Proof.
  induction a as [|c a IH]; intros Ha.
  - done.
  - rewrite append_cons. simpl in *. case_decide; [done|].
    by rewrite (IH Ha).
Qed.

Lemma split_space_tokens s : Forall (λ t, no_space t = true) (split_space s).
Proof.
  induction s as [|c s IH]; simpl.
  - by constructor.
  - case_decide as Hc; [by constructor|].
    destruct (split_space s) as [|t ts].
    + constructor; [|done]. simpl. by rewrite decide_False.
    + inversion IH; subst. constructor; [|done]. simpl. by rewrite decide_False.
Qed.

Lemma split_space_all_spaces s :
  all_spaces s = true →
  split_space s = replicate (S (String.length s)) "".
Proof.
  induction s as [|c s IH]; intros Hs; [done|].
  simpl in *. case_decide; [|done]. by rewrite (IH Hs).
Qed.

(** What [invoke] does with at least two tokens. *)
Lemma invoke_two_tokens host arg spec label rest w :
  split_space arg = spec :: label :: rest →
  GcorePointCmd_invoke host arg w
  = (CoreDumpBP_new host spec (Some label);; mret ()) w.
Proof.
  intros Hsplit. unfold GcorePointCmd_invoke.
  rewrite decide_False by (intros ->; done).
  rewrite Hsplit.
  destruct (decide (1 < length (spec :: label :: rest))) as [_|Hlen];
    [done | simpl in Hlen; lia].
Qed.

(** C9. A non-empty argument string of spaces only is not answered with the
    usage error: [invoke] asks gdb for a breakpoint whose spec is the empty
    first token (the label being the empty second one), and the only
    failure it can end with is gdb's own [gdb.error]. *)
Theorem invoke_spaces_creates_empty_spec (host : Host) (arg : string) (w : World) :
  arg ≠ "" →
  all_spaces arg = true →
  GcorePointCmd_invoke host arg w
  = (CoreDumpBP_new host "" (Some "");; mret ()) w
  ∧ exc_cls <$> raised (GcorePointCmd_invoke host arg w) ≠ Some GdbError.
Proof.
  intros Hne Hsp.
  assert (Hinv : GcorePointCmd_invoke host arg w
                 = (CoreDumpBP_new host "" (Some "");; mret ()) w).
  { destruct arg as [|c s]; [done|].
    apply (invoke_two_tokens host _ "" "" (replicate (String.length s) "")).
    rewrite (split_space_all_spaces _ Hsp). done. }
  split; [done|]. rewrite Hinv.
  unfold CoreDumpBP_new. py_simpl.
  by destruct (breakpoint_error host "").
Qed.

(** C10. When the argument splits into three tokens or more, [invoke] is
    the creation of a breakpoint from the first token as spec and the
    second as label: the rest has no part in it.  And two spaces right
    after the spec make the second token, hence the label, empty. *)
Theorem invoke_ignores_extra_tokens (host : Host) (arg spec label third : string)
    (rest : list string) (w : World) :
  split_space arg = spec :: label :: third :: rest →
  GcorePointCmd_invoke host arg w
  = (CoreDumpBP_new host spec (Some label);; mret ()) w
  ∧ (∀ tail,
       split_space (spec +:+ "  " +:+ tail) = spec :: "" :: split_space tail
       ∧ GcorePointCmd_invoke host (spec +:+ "  " +:+ tail) w
         = (CoreDumpBP_new host spec (Some "");; mret ()) w).
Proof.
  intros Hsplit. split.
  - by apply (invoke_two_tokens host arg spec label (third :: rest)).
  - intros tail.
    pose proof (split_space_tokens arg) as Htok. rewrite Hsplit in Htok.
    apply Forall_cons_1 in Htok as [Hspec _].
    assert (Hs : split_space (spec +:+ "  " +:+ tail)
                 = spec :: "" :: split_space tail).
    { change (spec +:+ "  " +:+ tail) with (spec +:+ String " " (String " " tail)).
      rewrite (split_space_append _ _ Hspec). simpl. done. }
    split; [done|].
    by apply (invoke_two_tokens host _ spec "" (split_space tail)).
Qed.

(** ** The theorems at work *)

Lemma failed_run_event_never_resumes_witness :
  run_event disk_full_host 0 (armed_world disk_full_host)
  = Raise (Exc gdb_error "Can't create a corefile")
          (world_of (run_event disk_full_host 0 (armed_world disk_full_host)))
  ∧ commands (world_of (GDBEventOneShot_call disk_full_host 0
                          (armed_world disk_full_host)))
    = commands (world_of (run_event disk_full_host 0 (armed_world disk_full_host))).
Proof.
  assert (H : run_event disk_full_host 0 (armed_world disk_full_host)
              = Raise (Exc gdb_error "Can't create a corefile")
                  (world_of (run_event disk_full_host 0 (armed_world disk_full_host))))
    by (vm_compute; reflexivity).
  split; [exact H|].
  exact (failed_run_event_never_resumes disk_full_host 0 _ _ _ H).
Defined.

Lemma successful_run_event_resumes_once_witness :
  let w := armed_world obliging_host in
  let w1 := world_of (run_event obliging_host 0 w) in
  commands (world_of (GDBEventOneShot_call obliging_host 0 w))
  = commands w1 ++ ["continue"]
  ∧ (∀ o0 f, heap w !! 0 = Some o0 → os_class o0 = GCoreOnStop →
             _file_name o0 = Some f →
             commands (world_of (GDBEventOneShot_call obliging_host 0 w))
             = commands w ++ ["gcore " +:+ f; "continue"]).
Proof.
  apply (successful_run_event_resumes_once obliging_host 0
           (armed_world obliging_host)
           (world_of (run_event obliging_host 0 (armed_world obliging_host)))
           (OneShot GCoreOnStop events_stop true (Some "core.4242.0")));
    vm_compute; reflexivity.
Defined.

Lemma fresh_world_ids_fresh pid : ids_fresh (fresh_world pid).
Proof.
  intros i _. split; [apply lookup_empty|]. intros r. apply not_elem_of_nil.
Qed.

Lemma stop_arms_one_binding_witness :
  let self := Breakpoint "main" None 0 in
  let w := fresh_world 4242 in
  ids_fresh w
  ∧ ∃ w', CoreDumpBP_stop self w = Ok true w'
    ∧ subscribers w' events_stop = subscribers w events_stop ++ [next_id w]
    ∧ (∀ r, r ≠ events_stop → subscribers w' r = subscribers w r)
    ∧ heap w' !! next_id w
      = Some (OneShot GCoreOnStop events_stop true
                (Some (core_file_name (_core_name self) (inferior_pid w) (hit_count self))))
    ∧ (∀ i, i ≠ next_id w → heap w' !! i = heap w !! i)
    ∧ commands w' = commands w
    ∧ run_log w' = run_log w
    ∧ breakpoints w' = breakpoints w
    ∧ stdout w' = stdout w
    ∧ next_id w' = S (next_id w)
    ∧ (ids_fresh w →
       heap w !! next_id w = None
       ∧ (∀ r, next_id w ∉ subscribers w r)
       ∧ ids_fresh w').
Proof.
  split.
  - apply fresh_world_ids_fresh.
  - apply (stop_arms_one_binding (Breakpoint "main" None 0) (fresh_world 4242)).
Defined.

Lemma core_file_name_of_hit_witness :
  let w := world_of (GcorePointCmd_invoke obliging_host "main run" (fresh_world 4242)) in
  heap (world_of (breakpoint_hit 0 (hits [0; 0] w))) !! 2
  = Some (OneShot GCoreOnStop events_stop true (Some "core.run.4242.2")).
Proof.
  pose proof (proj1 (core_file_name_of_hit obliging_host "main" (Some "run")
                       (fresh_world 4242) 0 _ [0; 0] 0 0 eq_refl)) as H.
  vm_compute in H. vm_compute. exact H.
Defined.

Lemma invoke_spaces_creates_empty_spec_witness :
  GcorePointCmd_invoke obliging_host "   " (fresh_world 1)
  = (CoreDumpBP_new obliging_host "" (Some "");; mret ()) (fresh_world 1)
  ∧ exc_cls <$> raised (GcorePointCmd_invoke obliging_host "   " (fresh_world 1))
    ≠ Some GdbError.
Proof.
  apply (invoke_spaces_creates_empty_spec obliging_host "   " (fresh_world 1)).
  - discriminate.
  - reflexivity.
Defined.

Lemma invoke_ignores_extra_tokens_witness :
  GcorePointCmd_invoke obliging_host "main run 1 2" (fresh_world 1)
  = (CoreDumpBP_new obliging_host "main" (Some "run");; mret ()) (fresh_world 1)
  ∧ (∀ tail,
       split_space ("main" +:+ "  " +:+ tail) = "main" :: "" :: split_space tail
       ∧ GcorePointCmd_invoke obliging_host ("main" +:+ "  " +:+ tail) (fresh_world 1)
         = (CoreDumpBP_new obliging_host "main" (Some "");; mret ()) (fresh_world 1)).
Proof.
  apply (invoke_ignores_extra_tokens obliging_host "main run 1 2"
           "main" "run" "1" ["2"] (fresh_world 1)).
  reflexivity.
Defined.

(** The scenarios of the command line, run through the script. *)
Example invoke_scenarios :
  breakpoints (world_of (GcorePointCmd_invoke obliging_host "main run 1 2" (fresh_world 1)))
  = [Breakpoint "main" (Some "run") 0]
  ∧ breakpoints (world_of (GcorePointCmd_invoke obliging_host "main  run" (fresh_world 1)))
    = [Breakpoint "main" (Some "") 0]
  ∧ breakpoints (world_of (GcorePointCmd_invoke obliging_host "   " (fresh_world 1)))
    = [Breakpoint "" (Some "") 0]
  ∧ breakpoints (world_of (GcorePointCmd_invoke obliging_host "main" (fresh_world 1)))
    = [Breakpoint "main" None 0]
  ∧ breakpoints (world_of (GcorePointCmd_invoke obliging_host "" (fresh_world 1)))
    = [].
Proof. by vm_compute. Qed.

(** * Beyond the claims *)

(** ** The command line *)

Lemma split_space_no_space s : no_space s = true → split_space s = [s].
Proof.
  induction s as [|c s IH]; intros Hs; [done|].
  simpl in *. case_decide; [done|]. by rewrite (IH Hs).
Qed.

(** [invoke] on a non-empty argument is the creation of one breakpoint from
    the first token, labelled with the second if there is one. *)
Lemma invoke_tokens host arg spec rest w :
  arg ≠ "" →
  split_space arg = spec :: rest →
  GcorePointCmd_invoke host arg w
  = (CoreDumpBP_new host spec (head rest);; mret ()) w.
Proof.
  intros Hne Hsplit. destruct rest as [|label rest].
  - unfold GcorePointCmd_invoke. rewrite decide_False by done. rewrite Hsplit.
    destruct (decide (1 < length [spec])) as [Hlen|_];
      [simpl in Hlen; lia | done].
  - by apply (invoke_two_tokens host arg spec label rest).
Qed.

(** X1. A single word is a spec without a label: [invoke] creates the
    breakpoint with [core_name] left at [None]. *)
Theorem invoke_single_token (host : Host) (arg : string) (w : World) :
  arg ≠ "" →
  no_space arg = true →
  GcorePointCmd_invoke host arg w = (CoreDumpBP_new host arg None;; mret ()) w.
Proof.
  intros Hne Hs.
  apply (invoke_tokens host arg arg [] w Hne).
  by apply split_space_no_space.
Qed.

(** X2. Two words separated by one space are the spec and the label, also
    when one of them is empty (a leading or a trailing space). *)
Theorem invoke_spec_and_label (host : Host) (spec label : string) (w : World) :
  no_space spec = true →
  no_space label = true →
  GcorePointCmd_invoke host (spec +:+ " " +:+ label) w
  = (CoreDumpBP_new host spec (Some label);; mret ()) w.
Proof.
  intros Hspec Hlabel.
  apply (invoke_two_tokens host _ spec label []).
  change (spec +:+ " " +:+ label) with (spec +:+ String " " label).
  by rewrite (split_space_append _ _ Hspec), (split_space_no_space _ Hlabel).
Qed.

(** X3. When gdb rejects the spec, its [gdb.error] leaves [invoke] as it
    is, and the world is unchanged: no breakpoint, nothing armed. *)
Theorem invoke_rejected_spec (host : Host) (arg spec msg : string)
    (rest : list string) (w : World) :
  arg ≠ "" →
  split_space arg = spec :: rest →
  breakpoint_error host spec = Some msg →
  GcorePointCmd_invoke host arg w = Raise (Exc gdb_error msg) w.
Proof.
  intros Hne Hsplit Hrej. rewrite (invoke_tokens host arg spec rest w Hne Hsplit).
  unfold CoreDumpBP_new. py_simpl. by rewrite Hrej.
Qed.

(** X4. When gdb accepts the spec, [invoke] returns after adding exactly one
    breakpoint, not yet hit, to gdb's table; no binding is armed, no
    command sent, nothing printed. *)
Theorem invoke_creates_one_breakpoint (host : Host) (arg spec : string)
    (rest : list string) (w : World) :
  arg ≠ "" →
  split_space arg = spec :: rest →
  breakpoint_error host spec = None →
  GcorePointCmd_invoke host arg w
  = Ok () (set_breakpoints (breakpoints w ++ [Breakpoint spec (head rest) 0]) w).
Proof.
  intros Hne Hsplit Hacc. rewrite (invoke_tokens host arg spec rest w Hne Hsplit).
  unfold CoreDumpBP_new. py_simpl. by rewrite Hacc.
Qed.

(** X5. Whatever the argument, [invoke] leaves the breakpoint table as it
    was or adds one breakpoint to it, and neither the spec nor the label of
    that breakpoint contains a space. *)
Theorem invoke_breakpoint_has_no_space (host : Host) (arg : string) (w : World) :
  breakpoints (world_of (GcorePointCmd_invoke host arg w)) = breakpoints w
  ∨ ∃ spec label,
      breakpoints (world_of (GcorePointCmd_invoke host arg w))
      = breakpoints w ++ [Breakpoint spec label 0]
      ∧ no_space spec = true
      ∧ (∀ name, label = Some name → no_space name = true).
Proof.
  destruct (decide (arg = "")) as [->|Hne]; [by left|].
  pose proof (split_space_tokens arg) as Htok.
  destruct (split_space arg) as [|spec rest] eqn:Hsplit;
    [by apply split_space_not_nil in Hsplit|].
  apply Forall_cons_1 in Htok as [Hspec Hrest].
  rewrite (invoke_tokens host arg spec rest w Hne Hsplit).
  unfold CoreDumpBP_new. py_simpl.
  destruct (breakpoint_error host spec); [by left|].
  right. exists spec, (head rest). split; [done|]. split; [done|].
  intros name Hname. destruct rest as [|label rest]; simplify_eq/=.
  by apply Forall_cons_1 in Hrest as [Hlabel _].
Qed.

(** X6. Two spaces after the spec: the label is the empty string, not
    absent, so the first hit of the new breakpoint arms a dump named
    [core..<pid>.0], with two dots. *)
Theorem invoke_double_space_file_name (host : Host) (spec tail : string) (w : World) :
  no_space spec = true →
  breakpoint_error host spec = None →
  heap (world_of (breakpoint_hit (length (breakpoints w))
                    (world_of (GcorePointCmd_invoke host (spec +:+ "  " +:+ tail) w))))
    !! next_id w
  = Some (OneShot GCoreOnStop events_stop true
            (Some ("core.." +:+ str_int (inferior_pid w) +:+ ".0"))).
Proof.
  intros Hspec Hacc.
  assert (Hsplit : split_space (spec +:+ "  " +:+ tail)
                   = spec :: "" :: split_space tail).
  { change (spec +:+ "  " +:+ tail) with (spec +:+ String " " (String " " tail)).
    by rewrite (split_space_append _ _ Hspec). }
  rewrite (invoke_two_tokens host _ spec "" (split_space tail) w Hsplit).
  unfold CoreDumpBP_new. py_simpl. rewrite Hacc. simpl.
  unfold breakpoint_hit. simpl.
  rewrite lookup_app_r, Nat.sub_diag by done. simpl.
  by rewrite lookup_alter_eq, lookup_insert_eq.
Qed.

(** ** The binder, path by path *)

Section BinderPaths.

Context (host : Host).

Lemma after_try_other_registries self force_stop w o r :
  heap w !! self = Some o →
  r ≠ _registry o →
  subscribers (world_of (after_try host self force_stop w)) r = subscribers w r.
Proof.
  intros Hself Hr. unfold after_try, self_attr, disconnect, gdb_execute. py_simpl.
  rewrite Hself. simpl. rewrite Hself. simpl.
  destruct (negb force_stop && _continue o); simpl.
  - destruct (execute_error host _ _); simpl; by rewrite decide_False.
  - by rewrite decide_False.
Qed.

(** X7. When [run_event] returns, [__call__] takes the binding (its first
    connection) out of its own registry and touches no other registry, and
    that also when gdb then rejects the resume. *)
Theorem successful_call_disconnects self w w1 o :
  run_event host self w = Ok () w1 →
  heap w1 !! self = Some o →
  subscribers (world_of (GDBEventOneShot_call host self w)) (_registry o)
  = remove_first self (subscribers w1 (_registry o))
  ∧ (∀ r, r ≠ _registry o →
          subscribers (world_of (GDBEventOneShot_call host self w)) r
          = subscribers w1 r).
Proof.
  intros Hrun Hself. rewrite (call_run_event_ok host self w w1 Hrun). split.
  - by apply after_try_subscribers.
  - intros r Hr. by apply (after_try_other_registries self false w1 o).
Qed.

(** X8. A binding made with [continue_after_run=False] whose [run_event]
    returns makes [__call__] return too, without sending gdb anything:
    the inferior stays stopped. *)
Theorem call_without_resume self w w1 o :
  run_event host self w = Ok () w1 →
  heap w1 !! self = Some o →
  _continue o = false →
  ∃ w', GDBEventOneShot_call host self w = Ok () w'
        ∧ commands w' = commands w1.
Proof.
  intros Hrun Hself Hcont. rewrite (call_run_event_ok host self w w1 Hrun).
  unfold after_try, self_attr, disconnect. py_simpl.
  rewrite Hself. simpl. rewrite Hself. simpl. rewrite Hcont. simpl.
  by eexists.
Qed.

(** X9. With no global name [e], a [run_event] that raises makes
    [__call__] raise [NameError] from the [except] clause, in the very
    world [run_event] left: nothing printed, nothing disconnected, nothing
    sent to gdb. *)
Theorem call_except_clause_name_error self w x w1 :
  run_event host self w = Raise x w1 →
  globals w1 !! "e" = None →
  GDBEventOneShot_call host self w
  = Raise (Exc NameError "name 'e' is not defined") w1.
Proof. apply call_run_event_raises_unbound. Qed.

(** X10. Were [e] bound in the namespace to an exception class of which the
    failure is an instance, the handler runs: it prints that class (what
    [e] names, not the failure), the binding is disconnected, no command is
    sent and [__call__] returns normally. *)
Theorem call_handler_prints_the_class self w x w1 c o :
  run_event host self w = Raise x w1 →
  globals w1 !! "e" = Some (VExcClass c) →
  issubclass (exc_cls x) c = true →
  heap w1 !! self = Some o →
  ∃ w', GDBEventOneShot_call host self w = Ok () w'
        ∧ stdout w' = stdout w1 ++ ["<class '" +:+ class_name c +:+ "'>"]
        ∧ subscribers w' (_registry o)
          = remove_first self (subscribers w1 (_registry o))
        ∧ commands w' = commands w1.
Proof.
  intros Hrun He Hsub Hself.
  unfold GDBEventOneShot_call, try_except, load_name, print, self_attr, disconnect.
  py_simpl. rewrite Hrun, He. simpl. rewrite Hsub, He. simpl.
  rewrite Hself. simpl. rewrite Hself. simpl.
  eexists. split; [reflexivity|]. simpl.
  by rewrite decide_True.
Qed.


(** What the class expression of line 55 would catch, value by value. *)
Example except_matches_cases :
  let x := Exc gdb_error "Can't create a corefile" in
  except_matches x (VExcClass PyException) = Some true
  ∧ except_matches x (VExcClass IndexError) = Some false
  ∧ except_matches x (VTuple [VExcClass PyException]) = Some true
  ∧ except_matches x (VTuple [VExcClass IndexError; VExcClass RuntimeError]) = Some true
  ∧ except_matches x (VTuple []) = Some false
  ∧ except_matches x (VTuple [VExcClass PyException; VOther "5"]) = None
  ∧ except_matches x (VTuple [VTuple [VExcClass PyException]]) = None
  ∧ except_matches x (VOther "5") = None
  ∧ str_of (VTuple [VExcClass PyException]) = "(<class 'Exception'>,)"
  ∧ str_of (VTuple []) = "()".
Proof. by vm_compute. Qed.

(** With [e = (Exception,)] the failed dump is caught: the tuple is printed
    and the binding disconnected; with [e = ()] the failure goes through. *)
Example call_with_tuple_e :
  let w := with_global_e (VTuple [VExcClass PyException]) (armed_world disk_full_host) in
  let w' := with_global_e (VTuple []) (armed_world disk_full_host) in
  raised (GDBEventOneShot_call disk_full_host 0 w) = None
  ∧ stdout (world_of (GDBEventOneShot_call disk_full_host 0 w))
    = ["(<class 'Exception'>,)"]
  ∧ subscribers (world_of (GDBEventOneShot_call disk_full_host 0 w)) events_stop = []
  ∧ raised (GDBEventOneShot_call disk_full_host 0 w')
    = Some (Exc gdb_error "Can't create a corefile")
  ∧ subscribers (world_of (GDBEventOneShot_call disk_full_host 0 w')) events_stop = [0].
Proof. by vm_compute. Qed.

(** X12. [GCoreOnStop.run_event] sends gdb the one command
    [gcore <file name>] and nothing else; it raises exactly when gdb
    rejects that command, and then with gdb's own error. *)
Theorem GCoreOnStop_run_event_outcome self w o f :
  heap w !! self = Some o →
  os_class o = GCoreOnStop →
  _file_name o = Some f →
  commands (world_of (run_event host self w)) = commands w ++ ["gcore " +:+ f]
  ∧ raised (run_event host self w)
    = Exc gdb_error
      <$> execute_error host (set_run_log (run_log w ++ [self]) w) ("gcore " +:+ f)
  ∧ heap (world_of (run_event host self w)) = heap w
  ∧ subscribers (world_of (run_event host self w)) = subscribers w.
Proof.
  intros Hself Hcls Hf.
  unfold run_event, GCoreOnStop_run_event, entered, self_attr, gdb_execute.
  py_simpl. rewrite Hself. simpl. rewrite Hcls. simpl. rewrite Hself. simpl.
  rewrite Hf. by destruct (execute_error host _ _).
Qed.

Lemma remove_first_app_fresh x l : x ∉ l → remove_first x (l ++ [x]) = l.
Proof.
  induction l as [|y l IH]; intros Hx; simpl.
  - by rewrite decide_True.
  - apply not_elem_of_cons in Hx as [Hxy Hx].
    rewrite decide_False by done. by rewrite (IH Hx).
Qed.

(** X13. Arming and firing undo each other on the registry: after
    [GCoreOnStop(f)] and one call of the new binding whose dump gdb
    accepts, [gdb.events.stop] holds the callbacks it held before. *)
Theorem arm_then_fire_restores_registry f w :
  next_id w ∉ subscribers w events_stop →
  (∀ w', execute_error host w' ("gcore " +:+ f) = None) →
  subscribers
    (world_of (GDBEventOneShot_call host (next_id w)
                 (world_of (GCoreOnStop_new f w))))
    events_stop
  = subscribers w events_stop.
Proof.
  intros Hfresh Hacc.
  set (w0 := world_of (GCoreOnStop_new f w)).
  set (o := OneShot GCoreOnStop events_stop true (Some f)).
  assert (Hself : heap w0 !! next_id w = Some o).
  { subst w0. simpl. by rewrite lookup_alter_eq, lookup_insert_eq. }
  assert (Hrun : run_event host (next_id w) w0
                 = Ok () (world_of (run_event host (next_id w) w0))).
  { unfold run_event, GCoreOnStop_run_event, entered, self_attr, gdb_execute.
    py_simpl. rewrite Hself. simpl. rewrite Hself. simpl. by rewrite Hacc. }
  rewrite (call_run_event_ok host _ _ _ Hrun).
  assert (Hself1 : heap (world_of (run_event host (next_id w) w0)) !! next_id w
                   = Some o).
  { unfold run_event, GCoreOnStop_run_event, entered, self_attr, gdb_execute.
    py_simpl. rewrite Hself. simpl. rewrite Hself. simpl. by rewrite Hacc. }
  pose proof (after_try_subscribers host _ _ o Hself1) as Hcall.
  change (_registry o) with events_stop in Hcall. rewrite Hcall.
  assert (Hsubs : subscribers (world_of (run_event host (next_id w) w0)) events_stop
                  = subscribers w events_stop ++ [next_id w]).
  { unfold run_event, GCoreOnStop_run_event, entered, self_attr, gdb_execute.
    py_simpl. rewrite Hself. simpl. rewrite Hself. simpl. by rewrite Hacc. }
  rewrite Hsubs. by apply remove_first_app_fresh.
Qed.

End BinderPaths.

(** ** The breakpoint, hit after hit *)

Lemma pretty_N_go_no_dot x s : no_dot s = true → no_dot (pretty_N_go x s) = true.
Proof.
  revert s. induction (N.lt_wf_0 x) as [x _ IH]; intros s Hs.
  assert (x = 0 ∨ 0 < x)%N as [->|Hx] by lia.
  - by rewrite pretty_N_go_0.
  - rewrite pretty_N_go_step by done. apply IH.
    { by apply N.div_lt. }
    simpl. rewrite Hs. unfold pretty_N_char. by repeat case_match.
Qed.

Lemma str_int_no_dot z : no_dot (str_int z) = true.
Proof.
  assert (HN : ∀ n : N, no_dot (pretty n) = true).
  { intros n. unfold pretty, pretty_N. case_decide; [done|].
    by apply pretty_N_go_no_dot. }
  unfold str_int, pretty, pretty_Z. destruct z as [|p|p]; [done|apply HN|].
  rewrite append_cons. simpl. apply HN.
Qed.

Lemma append_nil (s : string) : "" +:+ s = s.
Proof. done. Qed.

Lemma append_dot_inj a a' b b' :
  no_dot a = true → no_dot a' = true →
  a +:+ String "." b = a' +:+ String "." b' → a = a' ∧ b = b'.
Proof.
  revert a'. induction a as [|c a IH]; intros [|c' a'] Ha Ha' Heq;
    rewrite ?append_nil, ?append_cons in Heq; simpl in Ha, Ha'.
  - by injection Heq as ->.
  - injection Heq as <- _. by rewrite decide_True in Ha'.
  - injection Heq as -> _. by rewrite decide_True in Ha.
  - injection Heq as -> Heq. case_decide; [done|].
    by destruct (IH a' Ha Ha' Heq) as [-> ->].
Qed.

(** X14. One breakpoint never names two of its dumps alike: for the same
    label, two file names are equal only if both the pid and the hit count
    are. *)
Theorem core_file_name_inj (core_name : option string) (pid pid' hits hits' : Z) :
  core_file_name core_name pid hits = core_file_name core_name pid' hits' →
  pid = pid' ∧ hits = hits'.
Proof.
  unfold core_file_name. intros Heq.
  apply (inj (String.app "core.")) in Heq.
  apply (inj (String.app _)) in Heq.
  apply append_dot_inj in Heq as [Hpid Hhits]; [|apply str_int_no_dot..].
  split; by apply (inj pretty).
Qed.

Lemma breakpoint_hit_arms i w bp :
  breakpoints w !! i = Some bp →
  subscribers (world_of (breakpoint_hit i w)) events_stop
  = subscribers w events_stop ++ [next_id w]
  ∧ next_id (world_of (breakpoint_hit i w)) = S (next_id w)
  ∧ length (breakpoints (world_of (breakpoint_hit i w))) = length (breakpoints w).
Proof.
  intros Hi. unfold breakpoint_hit. rewrite Hi. simpl.
  by rewrite length_alter.
Qed.

Lemma breakpoint_hit_silent i w :
  commands (world_of (breakpoint_hit i w)) = commands w
  ∧ run_log (world_of (breakpoint_hit i w)) = run_log w
  ∧ stdout (world_of (breakpoint_hit i w)) = stdout w.
Proof. unfold breakpoint_hit. by destruct (breakpoints w !! i). Qed.

(** X15. Hits pile their bindings up in [gdb.events.stop] and do nothing
    else: after any sequence of hits of existing breakpoints, with no stop
    event in between, the registry has gained one new callback per hit, in
    the order of the hits and with consecutive new identities, while gdb
    has been sent no command, no [run_event] has been entered and nothing
    has been printed. *)
Theorem hits_subscribers (l : list nat) (w : World) :
  Forall (λ i, i < length (breakpoints w)) l →
  subscribers (hits l w) events_stop
  = subscribers w events_stop ++ seq (next_id w) (length l)
  ∧ next_id (hits l w) = next_id w + length l
  ∧ commands (hits l w) = commands w
  ∧ run_log (hits l w) = run_log w
  ∧ stdout (hits l w) = stdout w.
Proof.
  revert w. induction l as [|i l IH]; intros w Hl.
  - simpl. by rewrite app_nil_r, Nat.add_0_r.
  - apply Forall_cons_1 in Hl as [Hi Hl].
    apply lookup_lt_is_Some_2 in Hi as [bp Hbp].
    destruct (breakpoint_hit_arms i w bp Hbp) as (Hsubs & Hnext & Hlen).
    destruct (breakpoint_hit_silent i w) as (Hcmd & Hlog & Hout).
    change (hits (i :: l) w) with (hits l (world_of (breakpoint_hit i w))).
    destruct (IH (world_of (breakpoint_hit i w))) as (IHs & IHn & IHc & IHl & IHo);
      [by rewrite Hlen|].
    rewrite IHs, IHn, IHc, IHl, IHo, Hsubs, Hnext, Hcmd, Hlog, Hout. simpl.
    rewrite <- app_assoc. split; [done|]. split; [lia|done].
Qed.

Section Cycles.

Context (host : Host).
Hypothesis accepts : ∀ w cmd, execute_error host w cmd = None.

(** One hit of an existing breakpoint followed by the stop event, the
    registry being empty before. *)
Lemma hit_cycle_step i w bp :
  breakpoints w !! i = Some bp →
  subscribers w events_stop = [] →
  subscribers (hit_cycle host i w) events_stop = []
  ∧ breakpoints (hit_cycle host i w) = alter bump i (breakpoints w)
  ∧ inferior_pid (hit_cycle host i w) = inferior_pid w
  ∧ commands (hit_cycle host i w)
    = commands w
      ++ ["gcore " +:+ core_file_name (_core_name bp) (inferior_pid w) (hit_count bp);
          "continue"].
Proof.
  intros Hbp Hsubs. unfold hit_cycle, breakpoint_hit. rewrite Hbp. simpl.
  unfold emit, deliver. simpl. rewrite Hsubs. simpl.
  unfold GDBEventOneShot_call, try_except, run_event, GCoreOnStop_run_event,
    entered, self_attr, disconnect, gdb_execute.
  py_simpl.
  rewrite !lookup_alter_eq, !lookup_insert_eq. simpl.
  rewrite !lookup_alter_eq, !lookup_insert_eq. simpl.
  rewrite !accepts. simpl.
  rewrite !lookup_alter_eq, !lookup_insert_eq. simpl.
  rewrite !lookup_alter_eq, !lookup_insert_eq. simpl.
  rewrite !accepts. simpl.
  rewrite Hsubs. simpl. rewrite decide_True by done.
  by rewrite <- app_assoc.
Qed.

(** X16. With a host that accepts its commands and nothing else connected
    to [gdb.events.stop], one hit and its stop event send gdb the dump
    named after the hit and then the resume, count the hit, and leave the
    registry empty again. *)
Theorem hit_cycle_dumps_and_resumes i w bp :
  breakpoints w !! i = Some bp →
  subscribers w events_stop = [] →
  commands (hit_cycle host i w)
  = commands w
    ++ ["gcore " +:+ core_file_name (_core_name bp) (inferior_pid w) (hit_count bp);
        "continue"]
  ∧ breakpoints (hit_cycle host i w) !! i = Some (bump bp)
  ∧ subscribers (hit_cycle host i w) events_stop = [].
Proof.
  intros Hbp Hsubs.
  destruct (hit_cycle_step i w bp Hbp Hsubs) as (Hs & Hb & _ & Hc).
  split; [done|]. split; [|done].
  by rewrite Hb, list_lookup_alter_eq, Hbp.
Qed.

(** X17. Under the same conditions [k] hits of one breakpoint in a row
    send gdb [k] dumps, named with the hit counts from the one the
    breakpoint started with upwards, each followed by one resume. *)
Theorem cycles_dump_each_hit k i w bp :
  breakpoints w !! i = Some bp →
  subscribers w events_stop = [] →
  commands (cycles host k i w)
  = commands w
    ++ dump_commands (_core_name bp) (inferior_pid w) (hit_count bp) k.
Proof.
  revert w bp. induction k as [|k IH]; intros w bp Hbp Hsubs.
  - simpl. by rewrite app_nil_r.
  - destruct (hit_cycle_step i w bp Hbp Hsubs) as (Hs & Hb & Hp & Hc).
    simpl. rewrite (IH _ (bump bp)); [|by rewrite Hb, list_lookup_alter_eq, Hbp|done].
    rewrite Hc, Hp. simpl. by rewrite <- app_assoc.
Qed.

End Cycles.

(** ** The further properties at work *)

Lemma invoke_single_token_witness :
  GcorePointCmd_invoke obliging_host "main" (fresh_world 1)
  = (CoreDumpBP_new obliging_host "main" None;; mret ()) (fresh_world 1).
Proof.
  apply (invoke_single_token obliging_host "main" (fresh_world 1)).
  - discriminate.
  - reflexivity.
Defined.

Lemma invoke_spec_and_label_witness :
  GcorePointCmd_invoke obliging_host ("main" +:+ " " +:+ "run") (fresh_world 1)
  = (CoreDumpBP_new obliging_host "main" (Some "run");; mret ()) (fresh_world 1).
Proof.
  apply (invoke_spec_and_label obliging_host "main" "run" (fresh_world 1));
    vm_compute; reflexivity.
Defined.

Lemma invoke_rejected_spec_witness :
  GcorePointCmd_invoke rejecting_host "nowhere run" (fresh_world 1)
  = Raise (Exc gdb_error "No symbol table is loaded.") (fresh_world 1).
Proof.
  apply (invoke_rejected_spec rejecting_host "nowhere run" "nowhere"
           "No symbol table is loaded." ["run"] (fresh_world 1)).
  - discriminate.
  - reflexivity.
  - reflexivity.
Defined.

Lemma invoke_creates_one_breakpoint_witness :
  GcorePointCmd_invoke obliging_host "main run" (fresh_world 1)
  = Ok () (set_breakpoints
             (breakpoints (fresh_world 1) ++ [Breakpoint "main" (head ["run"]) 0])
             (fresh_world 1)).
Proof.
  apply (invoke_creates_one_breakpoint obliging_host "main run" "main" ["run"]
           (fresh_world 1)).
  - discriminate.
  - reflexivity.
  - reflexivity.
Defined.

Lemma invoke_double_space_file_name_witness :
  heap (world_of (breakpoint_hit 0
                    (world_of (GcorePointCmd_invoke obliging_host "main  run"
                                 (fresh_world 4242)))))
    !! 0
  = Some (OneShot GCoreOnStop events_stop true (Some "core..4242.0")).
Proof.
  pose proof (invoke_double_space_file_name obliging_host "main" "run"
                (fresh_world 4242) eq_refl eq_refl) as H.
  vm_compute in H. vm_compute. exact H.
Defined.

Lemma successful_call_disconnects_witness :
  let w := armed_world obliging_host in
  let w1 := world_of (run_event obliging_host 0 w) in
  subscribers (world_of (GDBEventOneShot_call obliging_host 0 w)) events_stop
  = remove_first 0 (subscribers w1 events_stop)
  ∧ (∀ r, r ≠ events_stop →
          subscribers (world_of (GDBEventOneShot_call obliging_host 0 w)) r
          = subscribers w1 r).
Proof.
  apply (successful_call_disconnects obliging_host 0
           (armed_world obliging_host)
           (world_of (run_event obliging_host 0 (armed_world obliging_host)))
           (OneShot GCoreOnStop events_stop true (Some "core.4242.0")));
    vm_compute; reflexivity.
Defined.

Lemma call_without_resume_witness :
  ∃ w', GDBEventOneShot_call obliging_host 0 quiet_world = Ok () w'
        ∧ commands w' = commands (world_of (run_event obliging_host 0 quiet_world)).
Proof.
  apply (call_without_resume obliging_host 0 quiet_world
           (world_of (run_event obliging_host 0 quiet_world))
           (OneShot (UserOneShot 0) events_stop false None));
    vm_compute; reflexivity.
Defined.

Lemma call_except_clause_name_error_witness :
  let w := armed_world disk_full_host in
  GDBEventOneShot_call disk_full_host 0 w
  = Raise (Exc NameError "name 'e' is not defined")
          (world_of (run_event disk_full_host 0 w)).
Proof.
  apply (call_except_clause_name_error disk_full_host 0
           (armed_world disk_full_host)
           (Exc gdb_error "Can't create a corefile")
           (world_of (run_event disk_full_host 0 (armed_world disk_full_host))));
    vm_compute; reflexivity.
Defined.

Lemma call_handler_prints_the_class_witness :
  let w := with_global_e (VExcClass PyException) (armed_world disk_full_host) in
  let w1 := world_of (run_event disk_full_host 0 w) in
  ∃ w', GDBEventOneShot_call disk_full_host 0 w = Ok () w'
        ∧ stdout w' = stdout w1 ++ ["<class '" +:+ class_name PyException +:+ "'>"]
        ∧ subscribers w' events_stop = remove_first 0 (subscribers w1 events_stop)
        ∧ commands w' = commands w1.
Proof.
  apply (call_handler_prints_the_class disk_full_host 0
           (with_global_e (VExcClass PyException) (armed_world disk_full_host))
           (Exc gdb_error "Can't create a corefile")
           (world_of (run_event disk_full_host 0
              (with_global_e (VExcClass PyException) (armed_world disk_full_host))))
           PyException
           (OneShot GCoreOnStop events_stop true (Some "core.4242.0")));
    vm_compute; reflexivity.
Defined.


Lemma GCoreOnStop_run_event_outcome_witness :
  let w := armed_world disk_full_host in
  commands (world_of (run_event disk_full_host 0 w))
  = commands w ++ ["gcore " +:+ "core.4242.0"]
  ∧ raised (run_event disk_full_host 0 w)
    = Exc gdb_error
      <$> execute_error disk_full_host (set_run_log (run_log w ++ [0]) w)
            ("gcore " +:+ "core.4242.0")
  ∧ heap (world_of (run_event disk_full_host 0 w)) = heap w
  ∧ subscribers (world_of (run_event disk_full_host 0 w)) = subscribers w.
Proof.
  apply (GCoreOnStop_run_event_outcome disk_full_host 0
           (armed_world disk_full_host)
           (OneShot GCoreOnStop events_stop true (Some "core.4242.0"))
           "core.4242.0");
    vm_compute; reflexivity.
Defined.

Lemma arm_then_fire_restores_registry_witness :
  subscribers
    (world_of (GDBEventOneShot_call obliging_host 1
                 (world_of (GCoreOnStop_new "core.1.1" (armed_world obliging_host)))))
    events_stop
  = [0].
Proof.
  apply (arm_then_fire_restores_registry obliging_host "core.1.1"
           (armed_world obliging_host)).
  - vm_compute. intros Hin. by apply list_elem_of_singleton in Hin.
  - intros w'. reflexivity.
Defined.

Lemma core_file_name_inj_witness : (4242 = 4242 ∧ 3 = 3)%Z.
Proof.
  apply (core_file_name_inj (Some "run") 4242 4242 3 3). reflexivity.
Defined.

Lemma hits_subscribers_witness :
  let w := world_of (GcorePointCmd_invoke obliging_host "main" (fresh_world 1)) in
  subscribers (hits [0; 0; 0] w) events_stop
  = subscribers w events_stop ++ seq (next_id w) (length [0; 0; 0])
  ∧ next_id (hits [0; 0; 0] w) = next_id w + length [0; 0; 0]
  ∧ commands (hits [0; 0; 0] w) = commands w
  ∧ run_log (hits [0; 0; 0] w) = run_log w
  ∧ stdout (hits [0; 0; 0] w) = stdout w.
Proof.
  apply (hits_subscribers [0; 0; 0]
           (world_of (GcorePointCmd_invoke obliging_host "main" (fresh_world 1)))).
  repeat constructor.
Defined.

Lemma hit_cycle_dumps_and_resumes_witness :
  let w := world_of (GcorePointCmd_invoke obliging_host "main run" (fresh_world 7)) in
  commands (hit_cycle obliging_host 0 w)
  = commands w ++ ["gcore " +:+ core_file_name (Some "run") 7 0; "continue"]
  ∧ breakpoints (hit_cycle obliging_host 0 w) !! 0
    = Some (bump (Breakpoint "main" (Some "run") 0))
  ∧ subscribers (hit_cycle obliging_host 0 w) events_stop = [].
Proof.
  apply (hit_cycle_dumps_and_resumes obliging_host (fun _ _ => eq_refl) 0
           (world_of (GcorePointCmd_invoke obliging_host "main run" (fresh_world 7)))
           (Breakpoint "main" (Some "run") 0));
    vm_compute; reflexivity.
Defined.

Lemma cycles_dump_each_hit_witness :
  let w := world_of (GcorePointCmd_invoke obliging_host "main" (fresh_world 4242)) in
  commands (cycles obliging_host 2 0 w)
  = commands w ++ dump_commands None 4242 0 2.
Proof.
  apply (cycles_dump_each_hit obliging_host (fun _ _ => eq_refl) 2 0
           (world_of (GcorePointCmd_invoke obliging_host "main" (fresh_world 4242)))
           (Breakpoint "main" None 0));
    vm_compute; reflexivity.
Defined.

(** The spec's scenario, run through the script and the host: two hits of
    [gcore-point main] for inferior 4242. *)
Example two_hits_two_dumps :
  commands (cycles obliging_host 2 0
              (world_of (GcorePointCmd_invoke obliging_host "main" (fresh_world 4242))))
  = ["gcore core.4242.0"; "continue"; "gcore core.4242.1"; "continue"].
Proof. by vm_compute. Qed.
